(** * dvclive.lightning: the DVCLiveLogger adapter

    A shallow embedding of [src/dvclive/lightning.py].  The logger forwards
    the callbacks of the training framework (hyperparameters, metrics,
    checkpoint notifications, finalization) to a tracking session, the
    [Live] object it holds in [_experiment].

    Conventions.
    - A Python [dict] that is only used as a mapping is a [gmap string _];
      the [metrics] argument of [log_metrics], which is iterated in order,
      is an association list.
    - Methods are computations in a state-and-exception monad over the
      logger object.  An exception leaves every mutation made before it in
      place, as in Python.
    - [inspect.stack()] is an input: the list of the active frames.
    - The decorators [rank_zero_only] and [rank_zero_experiment] are the
      identity on the process of rank zero, which is the process described
      here. *)

From Stdlib Require Import Ascii Floats.
From stdpp Require Import gmap strings list fin_maps.

Local Open Scope Z_scope.
Local Open Scope string_scope.
Local Open Scope list_scope.
Local Set Warnings "-register-all".

(** ** The call stack and [_should_call_next_step] *)

(** An entry of [inspect.stack()]; the logger reads [function] only. *)
Record FrameInfo := {
  filename : string;
  lineno : Z;
  function : string;
}.

(** The tuple of names tested by [_should_call_next_step]. *)
Definition finalizer_names : list string :=
  [ "update_train_step_metrics";
    "update_train_epoch_metrics";
    "log_eval_end_metrics" ].

(** [frame.function in (...)]: Python compares the strings with [==]. *)
Definition is_finalizer (frame : FrameInfo) : bool :=
  existsb (String.eqb (function frame)) finalizer_names.

(** [any(frame.function in (...) for frame in inspect.stack())] *)
Definition _should_call_next_step (stack : list FrameInfo) : bool :=
  existsb is_finalizer stack.

(** ** Hyperparameters *)

(** A parameter value that is not a mapping.  [SObj] stands for any object
    outside the primitive types and carries the text [str] gives for it. *)
Inductive scalar :=
  | SBool (b : bool)
  | SInt (z : Z)
  | SFloat (x : float)
  | SStr (s : string)
  | SObj (repr : string).

(** A parameter value: [isinstance(v, dict)] holds for [PDict] only. *)
Inductive pyval :=
  | PScalar (s : scalar)
  | PDict (d : gmap string pyval).

Definition as_scalar (v : pyval) : option scalar :=
  match v with PScalar s => Some s | PDict _ => None end.

(** Nesting depth, the measure for induction on parameter values. *)
Fixpoint depth (v : pyval) : nat :=
  match v with
  | PScalar _ => O
  | PDict d => S (max_list (snd <$> map_to_list (depth <$> d)))
  end.

(** [sanitize_leaves f v] rewrites every leaf of [v] with [f] and keeps the
    keys and the nesting as they are. *)
Fixpoint sanitize_leaves (f : scalar -> scalar) (v : pyval) : pyval :=
  match v with
  | PScalar s => PScalar (f s)
  | PDict d => PDict (sanitize_leaves f <$> d)
  end.

(** [lookup_path p v]: the value reached from [v] through the keys [p]. *)
Fixpoint lookup_path (p : list string) (v : pyval) : option pyval :=
  match p with
  | [] => Some v
  | k :: p' =>
      match v with
      | PDict d => match d !! k with Some v' => lookup_path p' v' | None => None end
      | PScalar _ => None
      end
  end.

Section Hyperparams.

(** [_sanitize_params], imported from [lightning.fabric.utilities.logger]. *)
Variable _sanitize_params : gmap string scalar -> gmap string scalar.

(** The body of the local function [sanitize_dict], on a value so that the
    recursion is structural:
    [dict_values] collects [k: sanitize_dict(v)] for the mappings [v],
    [non_dict_values] the other entries, and the result is
    [{**dict_values, **_sanitize_params(non_dict_values)}]. *)
Fixpoint sanitize_dict_rec (v : pyval) : gmap string pyval :=
  match v with
  | PScalar _ => ∅
  | PDict params =>
      let dict_values :=
        omap (fun v => match v with
                       | PDict _ => Some (PDict (sanitize_dict_rec v))
                       | PScalar _ => None
                       end) params in
      let non_dict_values := omap as_scalar params in
      let non_dict_values := _sanitize_params non_dict_values in
      (PScalar <$> non_dict_values) ∪ dict_values
  end.

Definition sanitize_dict (params : gmap string pyval) : gmap string pyval :=
  sanitize_dict_rec (PDict params).

End Hyperparams.

(** ** The tracking session *)

(** The keyword arguments collected in [_live_init]. *)
Record LiveInit := {
  resume : bool;
  report : option string;
  save_dvc_exp : bool;
  dvcyaml : bool;
  cache_images : bool;
  dir : option string;
}.

(** What the logger does to its session, one entry per method call or
    attribute assignment. *)
Inductive call :=
  | Set_step (step : option Z)
  | Log_metric (name : string) (val : float)
  | Set_latest_studio_step (n : Z)
  | Next_step
  | Log_params (params : gmap string pyval)
  | Log_artifact (path : string) (name : option string)
                 (type : option string) (cache : option bool)
  | End_run.

(** Modelled from the spec: the class [Live] of the package [dvclive], whose
    module is not among the sources.  The session has a mutable [step]
    property, an internal count of the last step sent to the remote service
    ("integer or unset"), and the methods [log_params], [log_metric],
    [next_step], [log_artifact] and [end].  [calls] is the journal of
    everything received, oldest first; it is the accumulated parameters,
    metrics and artifacts of the spec, kept in arrival order. *)
Record Live := {
  init_args : LiveInit;
  step : option Z;
  _latest_studio_step : option Z;
  calls : list call;
}.

Definition Live_record (c : call) (live : Live) : Live :=
  {| init_args := init_args live;
     step := step live;
     _latest_studio_step := _latest_studio_step live;
     calls := calls live ++ [c] |}.

(** Modelled from the spec: the constructor of [Live], called with the
    keyword arguments of [_live_init].  The state machine of the spec starts
    at step 0 and nothing has been sent yet. *)
Definition Live_new (args : LiveInit) : Live :=
  {| init_args := args; step := Some 0; _latest_studio_step := None; calls := [] |}.

(** Modelled from the spec: the setter of the mutable [step] property. *)
Definition Live_set_step (s : option Z) (live : Live) : Live :=
  Live_record (Set_step s)
    {| init_args := init_args live;
       step := s;
       _latest_studio_step := _latest_studio_step live;
       calls := calls live |}.

(** An assignment to the attribute [_latest_studio_step]. *)
Definition Live_set_latest_studio_step (n : Z) (live : Live) : Live :=
  Live_record (Set_latest_studio_step n)
    {| init_args := init_args live;
       step := step live;
       _latest_studio_step := Some n;
       calls := calls live |}.

(** Modelled from the spec: [Live.log_metric]; the value joins the metrics
    of the current step and nothing is sent. *)
Definition Live_log_metric (name : string) (val : float) : Live -> Live :=
  Live_record (Log_metric name val).

(** The step counter as a number: an unset [step] counts as the initial
    step 0. *)
Definition step_counter (live : Live) : Z := default 0 (step live).

(** Modelled from the spec: [Live.next_step].  "AWAITING_METRICS(step=N+1)"
    follows the metrics of step N, and the last step sent is "advanced by
    next_step() to match" the step just closed. *)
Definition Live_next_step (live : Live) : Live :=
  Live_record Next_step
    {| init_args := init_args live;
       step := Some (step_counter live + 1);
       _latest_studio_step := Some (step_counter live);
       calls := calls live |}.

(** Modelled from the spec: [Live.log_params], [Live.log_artifact] and
    [Live.end] store or flush what they are given; the logger reads
    nothing back from them. *)
Definition Live_log_params (params : gmap string pyval) : Live -> Live :=
  Live_record (Log_params params).

Definition Live_log_artifact (path : string) (name type : option string)
    (cache : option bool) : Live -> Live :=
  Live_record (Log_artifact path name type cache).

Definition Live_end : Live -> Live := Live_record End_run.

(** ** The logger object *)

(** [log_model: Union[str, bool]] *)
Inductive log_model :=
  | LMBool (b : bool)
  | LMStr (s : string).

#[global] Instance log_model_eq_dec : EqDecision log_model.
Proof. solve_decision. Defined.

(** The attributes of [ModelCheckpoint] the logger reads. *)
Record ModelCheckpoint := {
  dirpath : string;
  best_model_path : string;
  save_top_k : Z;
}.

Record DVCLiveLogger := {
  _prefix : string;
  _live_init : LiveInit;
  _experiment : option Live;
  _version : option string;
  _log_model : log_model;
  _checkpoint_callback : option ModelCheckpoint;
}.

Definition set_experiment (e : option Live) (self : DVCLiveLogger) : DVCLiveLogger :=
  {| _prefix := _prefix self;
     _live_init := _live_init self;
     _experiment := e;
     _version := _version self;
     _log_model := _log_model self;
     _checkpoint_callback := _checkpoint_callback self |}.

Definition set_checkpoint_callback (c : option ModelCheckpoint)
    (self : DVCLiveLogger) : DVCLiveLogger :=
  {| _prefix := _prefix self;
     _live_init := _live_init self;
     _experiment := _experiment self;
     _version := _version self;
     _log_model := _log_model self;
     _checkpoint_callback := c |}.

(** ** Methods as computations *)

Inductive exn :=
  | AttributeError
  | TypeError
  | ConversionError.

Inductive result (A : Type) :=
  | Ok (a : A)
  | Raise (e : exn).
Arguments Ok {A} a.
Arguments Raise {A} e.

(** A method body: it reads and updates the logger and returns or raises. *)
Definition M (A : Type) : Type := DVCLiveLogger -> result A * DVCLiveLogger.

Definition ret {A} (a : A) : M A := fun self => (Ok a, self).

Definition raise {A} (e : exn) : M A := fun self => (Raise e, self).

Definition bind {A B} (m : M A) (k : A -> M B) : M B :=
  fun self =>
    match m self with
    | (Ok a, self') => k a self'
    | (Raise e, self') => (Raise e, self')
    end.

Notation "x <- m ;; k" := (bind m (fun x => k))
  (at level 100, m at next level, k at level 200, right associativity).
Notation "m ;; k" := (bind m (fun _ => k))
  (at level 100, k at level 200, right associativity).

Definition gets {A} (f : DVCLiveLogger -> A) : M A := fun self => (Ok (f self), self).

Definition modify (f : DVCLiveLogger -> DVCLiveLogger) : M unit :=
  fun self => (Ok tt, f self).

(** [for x in l: body(x)] *)
Fixpoint for_each {A} (l : list A) (body : A -> M unit) : M unit :=
  match l with
  | [] => ret tt
  | x :: l' => body x ;; for_each l' body
  end.

(** The property [experiment]: the session is created on first access. *)
Definition experiment : M Live :=
  fun self =>
    match _experiment self with
    | Some live => (Ok live, self)
    | None =>
        let live := Live_new (_live_init self) in
        (Ok live, set_experiment (Some live) self)
    end.

(** [self.experiment.<method>(...)], or an assignment to an attribute of
    [self.experiment]: the session object is updated in place. *)
Definition on_experiment (f : Live -> Live) : M unit :=
  live <- experiment ;;
  modify (set_experiment (Some (f live))).

(** [DVCLiveLogger.__init__] *)
Definition __init__ (run_name : option string) (prefix : string)
    (log_model : log_model) (experiment : option Live) (dir : option string)
    (resume : bool) (report : option string)
    (save_dvc_exp dvcyaml cache_images : bool) : DVCLiveLogger :=
  let live_init :=
    {| resume := resume; report := report; save_dvc_exp := save_dvc_exp;
       dvcyaml := dvcyaml; cache_images := cache_images; dir := dir |} in
  let experiment :=
    if bool_decide (report = Some "notebook")
    then Some (default (Live_new live_init) experiment)
    else experiment in
  {| _prefix := prefix;
     _live_init := live_init;
     _experiment := experiment;
     _version := run_name;
     _log_model := log_model;
     _checkpoint_callback := None |}.

Definition name (self : DVCLiveLogger) : string := "DvcLiveLogger".

Definition version (self : DVCLiveLogger) : option string := _version self.

(** A value of the [metrics] mapping: a plain number, or a tensor with its
    elements. *)
Inductive metric_val :=
  | Number (x : float)
  | Tensor (elems : list float).

(** Modelled from the spec: [val.cpu().detach().item()] of torch, which
    "fails with a ConversionError-equivalent if the value has more than one
    element"; a tensor without elements has no scalar to give either. *)
Definition item (elems : list float) : M float :=
  match elems with
  | [x] => ret x
  | _ => raise ConversionError
  end.

(** [__name__] in this module. *)
Definition __name__ : string := "dvclive.lightning".

(** [self._log_model is True] *)
Definition is_True (m : log_model) : bool :=
  match m with LMBool true => true | _ => false end.

(** [self._log_model == "all"] *)
Definition is_all (m : log_model) : bool :=
  match m with LMStr s => String.eqb s "all" | LMBool _ => false end.

(** [self._log_model in (True, "all")] *)
Definition in_True_all (m : log_model) : bool := is_True m || is_all m.

(** Reading an attribute of [checkpoint_callback], which may be [None]. *)
Definition getattr {A} (attr : ModelCheckpoint -> A)
    (checkpoint_callback : option ModelCheckpoint) : M A :=
  match checkpoint_callback with
  | Some c => ret (attr c)
  | None => raise AttributeError
  end.

(** [self.experiment._latest_studio_step -= 1] *)
Definition decrement_latest_studio_step : M unit :=
  live <- experiment ;;
  match _latest_studio_step live with
  | Some n => on_experiment (Live_set_latest_studio_step (n - 1))
  | None => raise TypeError
  end.

Section Logger.

(** The helpers imported from [lightning.fabric.utilities.logger]. *)
Variable _convert_params : gmap string pyval -> gmap string pyval.
Variable _sanitize_callable_params : gmap string pyval -> gmap string pyval.
Variable _sanitize_params : gmap string scalar -> gmap string scalar.

(** [dvclive.utils.standardize_metric_name(metric_name, framework)] *)
Variable standardize_metric_name : string -> string -> string.

Definition log_hyperparams (params : gmap string pyval) : M unit :=
  let params := _convert_params params in
  let params := _sanitize_callable_params params in
  let params := sanitize_dict _sanitize_params params in
  on_experiment (Live_log_params params).

Definition log_metrics (stack : list FrameInfo)
    (metrics : list (string * metric_val)) (step : option Z) : M unit :=
  on_experiment (Live_set_step step) ;;
  for_each metrics (fun '(metric_name, metric_val) =>
    val <- match metric_val with
           | Tensor elems => item elems
           | Number x => ret x
           end ;;
    let name := standardize_metric_name metric_name __name__ in
    on_experiment (Live_log_metric name val)) ;;
  if _should_call_next_step stack then
    live <- experiment ;;
    (if bool_decide (step = _latest_studio_step live)
     then decrement_latest_studio_step
     else ret tt) ;;
    on_experiment Live_next_step
  else ret tt.

End Logger.

Definition after_save_checkpoint (checkpoint_callback : ModelCheckpoint) : M unit :=
  modify (set_checkpoint_callback (Some checkpoint_callback)) ;;
  log_model <- gets _log_model ;;
  if is_all log_model
     || (is_True log_model && Z.eqb (save_top_k checkpoint_callback) (-1))
  then on_experiment (Live_log_artifact (dirpath checkpoint_callback) None None None)
  else ret tt.

Definition finalize (status : string) : M unit :=
  checkpoint_callback <- gets _checkpoint_callback ;;
  log_model <- gets _log_model ;;
  (if is_True log_model then
     experiment ;;
     path <- getattr dirpath checkpoint_callback ;;
     on_experiment (Live_log_artifact path None None None)
   else ret tt) ;;
  (if in_True_all log_model then
     best_model_path <- getattr best_model_path checkpoint_callback ;;
     on_experiment
       (Live_log_artifact best_model_path (Some "best") (Some "model") (Some false))
   else ret tt) ;;
  on_experiment Live_end.

(** ** Reading a run *)

(** The journal of the logger's session, empty while there is no session. *)
Definition journal (self : DVCLiveLogger) : list call :=
  from_option calls [] (_experiment self).

Definition is_log_artifact (c : call) : bool :=
  match c with Log_artifact _ _ _ _ => true | _ => false end.

(** The [log_artifact] invocations of a journal, in order. *)
Definition artifact_calls (l : list call) : list call := List.filter is_log_artifact l.

(** The session the property [experiment] gives for [self]. *)
Definition current_session (self : DVCLiveLogger) : Live :=
  default (Live_new (_live_init self)) (_experiment self).

(** What has been added to the journal between [self] and [self']. *)
Definition new_calls (self self' : DVCLiveLogger) : list call :=
  drop (length (journal self)) (journal self').

(** Every tensor among the values has exactly one element. *)
Definition convertible (metrics : list (string * metric_val)) : bool :=
  forallb (fun '(_, v) => match v with
                          | Number _ | Tensor [_] => true
                          | Tensor _ => false
                          end) metrics.

(** [live] with the calls [cs] added at the end of its journal. *)
Definition with_calls (cs : list call) (live : Live) : Live :=
  {| init_args := init_args live;
     step := step live;
     _latest_studio_step := _latest_studio_step live;
     calls := calls live ++ cs |}.

(** The [log_metric] calls the loop of [log_metrics] makes for [metrics]:
    one per entry, up to the first tensor that [item] refuses. *)
Fixpoint metric_calls (standardize_metric_name : string -> string -> string)
    (metrics : list (string * metric_val)) : list call :=
  match metrics with
  | [] => []
  | (metric_name, Number x) :: rest
  | (metric_name, Tensor [x]) :: rest =>
      Log_metric (standardize_metric_name metric_name __name__) x
        :: metric_calls standardize_metric_name rest
  | (_, Tensor _) :: _ => []
  end.

(** ** Instances of the external helpers *)

(** Modelled from the spec: the "externally supplied sanitizer", which
    "stringifies non-primitive objects" and leaves the primitive values as
    they are. *)
Definition sanitize_scalar (s : scalar) : scalar :=
  match s with
  | SObj repr => SStr repr
  | _ => s
  end.

Definition sanitize_params_model (params : gmap string scalar) : gmap string scalar :=
  sanitize_scalar <$> params.

(** On a plain mapping that holds no callable, [_convert_params] and
    [_sanitize_callable_params] return their argument. *)
Definition convert_params_model (params : gmap string pyval) : gmap string pyval :=
  params.

Definition sanitize_callable_params_model (params : gmap string pyval)
    : gmap string pyval := params.

(** A metric-name function for the concrete runs below. *)
Definition metric_name_model (metric_name framework : string) : string :=
  metric_name.

(** ** Metric names *)

(** Does the character [c] occur in [s]? *)
Fixpoint occurs (c : Ascii.ascii) (s : string) : bool :=
  match s with
  | EmptyString => false
  | String b rest => Ascii.eqb c b || occurs c rest
  end.

(** [name] without the leading [prefix], when it starts with it. *)
Fixpoint without_prefix (prefix name : string) : option string :=
  match prefix with
  | EmptyString => Some name
  | String a prefix' =>
      match name with
      | String b name' =>
          if Ascii.eqb a b then without_prefix prefix' name' else None
      | EmptyString => None
      end
  end.

Section MetricName.

(** The prefix and the two separators, which the spec does not name. *)
Variable module_prefix : string.
Variables separator canonical : Ascii.ascii.

Definition strip_module_prefix (name : string) : string :=
  default name (without_prefix module_prefix name).

Fixpoint replace_separators (name : string) : string :=
  match name with
  | EmptyString => EmptyString
  | String c rest =>
      String (if Ascii.eqb c separator then canonical else c)
             (replace_separators rest)
  end.

(** Modelled from the spec: [dvclive.utils.standardize_metric_name], whose
    module is not among the sources: "strip a known
    adapter-module-qualifying prefix if present, then replace path
    separators with the tracking client's canonical separator". *)
Definition normalize_metric_name (name : string) : string :=
  replace_separators (strip_module_prefix name).

End MetricName.

(** ** Concrete inputs *)

(** [{"a": {"b": 1}, "c": 2}] *)
Definition hparams_nested : gmap string pyval :=
  {[ "a" := PDict {[ "b" := PScalar (SInt 1) ]}; "c" := PScalar (SInt 2) ]}.

(** [{"b": 1, "c": 2}] *)
Definition hparams_flat : gmap string pyval :=
  {[ "b" := PScalar (SInt 1); "c" := PScalar (SInt 2) ]}.

Definition frame (fn : string) : FrameInfo :=
  {| filename := "trainer.py"; lineno := 1; function := fn |}.

Definition checkpoints : ModelCheckpoint :=
  {| dirpath := "ckpts"; best_model_path := "ckpts/best.ckpt"; save_top_k := 1 |}.

(** [DVCLiveLogger(log_model=m)], the other arguments at their defaults. *)
Definition new_logger (m : log_model) : DVCLiveLogger :=
  __init__ (Some "dvclive_run") "" m None None false (Some "auto") false true false.

(** The logger after the framework has saved a checkpoint once. *)
Definition logger_with_checkpoint (m : log_model) : DVCLiveLogger :=
  snd (after_save_checkpoint checkpoints (new_logger m)).

(** A session at step [n] whose step [n] has already gone to the backend. *)
Definition session_at (n : Z) : Live :=
  {| init_args :=
       {| resume := true; report := Some "auto"; save_dvc_exp := false;
          dvcyaml := true; cache_images := false; dir := None |};
     step := Some n;
     _latest_studio_step := Some n;
     calls := [] |}.

(** [DVCLiveLogger(experiment=live)] *)
Definition logger_on (live : Live) : DVCLiveLogger :=
  __init__ (Some "dvclive_run") "" (LMBool false) (Some live) None false
    (Some "auto") false true false.

(** Stack snapshots, innermost frame first. *)
Definition stack_train_step : list FrameInfo :=
  [frame "log_metrics"; frame "update_train_step_metrics"; frame "main"].

Definition stack_train_epoch : list FrameInfo :=
  [frame "log_metrics"; frame "update_train_epoch_metrics"; frame "main"].

Definition stack_user_callback : list FrameInfo :=
  [frame "log_metrics"; frame "user_callback"; frame "main"].

(** ** The framework's calls *)

(** The [log_metric] call that [log_metrics] makes for one entry of
    [metrics], when its value converts. *)
Definition forwarded (standardize_metric_name : string -> string -> string)
    (entry : string * metric_val) : option call :=
  match entry with
  | (metric_name, Number x)
  | (metric_name, Tensor [x]) =>
      Some (Log_metric (standardize_metric_name metric_name __name__) x)
  | (_, Tensor _) => None
  end.

(** One call of the training framework on the logger. *)
Inductive request :=
  | Call_log_hyperparams (params : gmap string pyval)
  | Call_log_metrics (stack : list FrameInfo)
      (metrics : list (string * metric_val)) (step : option Z)
  | Call_after_save_checkpoint (checkpoint_callback : ModelCheckpoint)
  | Call_finalize (status : string).

Section Requests.

Variable _convert_params : gmap string pyval -> gmap string pyval.
Variable _sanitize_callable_params : gmap string pyval -> gmap string pyval.
Variable _sanitize_params : gmap string scalar -> gmap string scalar.
Variable standardize_metric_name : string -> string -> string.

Definition run_request (req : request) : M unit :=
  match req with
  | Call_log_hyperparams params =>
      log_hyperparams _convert_params _sanitize_callable_params
        _sanitize_params params
  | Call_log_metrics stack metrics step =>
      log_metrics standardize_metric_name stack metrics step
  | Call_after_save_checkpoint checkpoint_callback =>
      after_save_checkpoint checkpoint_callback
  | Call_finalize status => finalize status
  end.

(** The logger after the calls [reqs], made one after the other; a call
    that raised has left its mutations, and the next call finds them. *)
Fixpoint run_requests (reqs : list request) (self : DVCLiveLogger)
    : DVCLiveLogger :=
  match reqs with
  | [] => self
  | req :: reqs' => run_requests reqs' (snd (run_request req self))
  end.

End Requests.

(** The callback of the last [after_save_checkpoint] among [reqs], or
    [recorded] when there is none. *)
Fixpoint last_saved (reqs : list request) (recorded : option ModelCheckpoint)
    : option ModelCheckpoint :=
  match reqs with
  | [] => recorded
  | Call_after_save_checkpoint checkpoint_callback :: reqs' =>
      last_saved reqs' (Some checkpoint_callback)
  | _ :: reqs' => last_saved reqs' recorded
  end.

(** Two loggers that differ at most in whether the session has been created
    yet: the other attributes agree, and the property [experiment] gives the
    same session for both. *)
Definition same_but_created (self1 self2 : DVCLiveLogger) : Prop :=
  set_experiment None self1 = set_experiment None self2
  /\ current_session self1 = current_session self2.

(** * Properties *)

(** ** The step-advance decider *)

Lemma is_finalizer_spec (f : FrameInfo) :
  is_finalizer f = true <->
  function f = "update_train_step_metrics"
  \/ function f = "update_train_epoch_metrics"
  \/ function f = "log_eval_end_metrics".
Proof.
  unfold is_finalizer, finalizer_names. simpl.
  rewrite !orb_true_iff, !String.eqb_eq. intuition discriminate.
Qed.

Example decider_train_step :
  _should_call_next_step
    [frame "main"; frame "update_train_step_metrics"; frame "log_metrics"] = true.
Proof. reflexivity. Qed.

Example decider_user_callback :
  _should_call_next_step
    [frame "main"; frame "user_callback"; frame "log_metrics"] = false.
Proof. reflexivity. Qed.

Lemma decider_fires_iff (stack : list FrameInfo) :
  _should_call_next_step stack = true <->
  exists f, In f stack /\ is_finalizer f = true.
Proof. unfold _should_call_next_step. apply existsb_exists. Qed.

Lemma decider_quiet_iff (stack : list FrameInfo) :
  _should_call_next_step stack = false <->
  forall f, In f stack -> is_finalizer f = false.
Proof.
  unfold _should_call_next_step.
  induction stack as [|f stack IH]; simpl.
  - split; [intros _ f []|reflexivity].
  - rewrite orb_false_iff, IH. split.
    + intros [Hf Hrest] g [Heq|Hin]; [now subst g|now apply Hrest].
    + intros H. split; [apply H; now left|]. intros g Hin. apply H. now right.
Qed.

(** C1: [_should_call_next_step] returns true exactly when some frame of the
    stack snapshot is named [update_train_step_metrics],
    [update_train_epoch_metrics] or [log_eval_end_metrics]; on a snapshot
    with no such frame it returns false. *)
Theorem should_call_next_step_spec (stack : list FrameInfo) :
  (_should_call_next_step stack = true <->
     exists f, In f stack /\
       (function f = "update_train_step_metrics"
        \/ function f = "update_train_epoch_metrics"
        \/ function f = "log_eval_end_metrics"))
  /\ (_should_call_next_step stack = false <->
        forall f, In f stack ->
          function f <> "update_train_step_metrics"
          /\ function f <> "update_train_epoch_metrics"
          /\ function f <> "log_eval_end_metrics").
Proof.
  split.
  - rewrite decider_fires_iff.
    split; intros (f & Hin & Hf); exists f; (split; [exact Hin|]);
      now apply is_finalizer_spec.
  - rewrite decider_quiet_iff.
    split; intros H f Hin; specialize (H f Hin).
    + assert (Hn : ~ is_finalizer f = true) by (rewrite H; discriminate).
      rewrite is_finalizer_spec in Hn. tauto.
    + destruct (is_finalizer f) eqn:E; [|reflexivity].
      apply is_finalizer_spec in E. tauto.
Qed.

(** ** Hyperparameter sanitization *)

Lemma depth_lookup (d : gmap string pyval) (k : string) (v : pyval) :
  d !! k = Some v -> (depth v < depth (PDict d))%nat.
Proof.
  intros Hk. simpl. apply Nat.lt_succ_r, max_list_elem_of_le.
  apply list_elem_of_fmap. exists (k, depth v). split; [reflexivity|].
  apply elem_of_map_to_list. rewrite lookup_fmap, Hk. reflexivity.
Qed.

Section SanitizeDict.

Variable _sanitize_params : gmap string scalar -> gmap string scalar.
Variable sanitize_value : scalar -> scalar.
Hypothesis sanitize_pointwise :
  forall m, _sanitize_params m = sanitize_value <$> m.

Lemma sanitize_dict_lookup (params : gmap string pyval) (k : string) :
  sanitize_dict _sanitize_params params !! k =
    match params !! k with
    | Some (PScalar s) => Some (PScalar (sanitize_value s))
    | Some (PDict d) => Some (PDict (sanitize_dict _sanitize_params d))
    | None => None
    end.
Proof.
  unfold sanitize_dict. simpl.
  rewrite lookup_union, lookup_fmap, sanitize_pointwise, lookup_fmap, !lookup_omap.
  destruct (params !! k) as [[s|d]|]; reflexivity.
Qed.

Lemma sanitize_dict_leaves_depth (n : nat) :
  forall params : gmap string pyval,
    (depth (PDict params) <= n)%nat ->
    sanitize_dict _sanitize_params params = sanitize_leaves sanitize_value <$> params.
Proof.
  induction n as [|n IH]; intros params Hd.
  - simpl in Hd. lia.
  - apply map_eq. intros k.
    rewrite sanitize_dict_lookup, lookup_fmap.
    destruct (params !! k) as [[s|d]|] eqn:Hk; simpl; try reflexivity.
    rewrite IH; [reflexivity|].
    apply depth_lookup in Hk. lia.
Qed.

Lemma sanitize_dict_leaves (params : gmap string pyval) :
  sanitize_dict _sanitize_params params = sanitize_leaves sanitize_value <$> params.
Proof. now apply (sanitize_dict_leaves_depth (depth (PDict params))). Qed.

Lemma lookup_path_sanitize_leaves (p : list string) :
  forall v : pyval,
    lookup_path p (sanitize_leaves sanitize_value v) =
    sanitize_leaves sanitize_value <$> lookup_path p v.
Proof.
  induction p as [|k p IH]; intros v; [reflexivity|].
  destruct v as [s|d]; simpl; [reflexivity|].
  rewrite lookup_fmap. destruct (d !! k) as [v'|]; simpl; [apply IH|reflexivity].
Qed.

End SanitizeDict.

(** ** Running the methods *)

Ltac run :=
  unfold on_experiment, experiment, gets, modify, bind, ret, raise; simpl.

Lemma set_experiment_current (self : DVCLiveLogger) (live : Live) :
  _experiment self = Some live -> set_experiment (Some live) self = self.
Proof. destruct self; simpl; intros ->; reflexivity. Qed.

Lemma with_calls_nil (live : Live) : with_calls [] live = live.
Proof. destruct live; unfold with_calls; simpl. now rewrite app_nil_r. Qed.

Lemma with_calls_cons (c : call) (cs : list call) (live : Live) :
  with_calls cs (Live_record c live) = with_calls (c :: cs) live.
Proof. unfold with_calls, Live_record; simpl. now rewrite <- app_assoc. Qed.

Lemma on_experiment_run (f : Live -> Live) (self : DVCLiveLogger) :
  on_experiment f self = (Ok tt, set_experiment (Some (f (current_session self))) self).
Proof. unfold current_session. run. destruct (_experiment self); reflexivity. Qed.

Lemma experiment_run (self : DVCLiveLogger) :
  experiment self = (Ok (current_session self), set_experiment (Some (current_session self)) self).
Proof.
  unfold current_session, experiment.
  destruct (_experiment self) eqn:E; simpl; [|reflexivity].
  now rewrite set_experiment_current.
Qed.

Lemma bind_run {A B} (m : M A) (k : A -> M B) (self : DVCLiveLogger) :
  bind m k self =
    match m self with
    | (Ok a, self') => k a self'
    | (Raise e, self') => (Raise e, self')
    end.
Proof. reflexivity. Qed.

Lemma ret_run {A} (a : A) (self : DVCLiveLogger) : ret a self = (Ok a, self).
Proof. reflexivity. Qed.

Lemma raise_run {A} (e : exn) (self : DVCLiveLogger) :
  @raise A e self = (Raise e, self).
Proof. reflexivity. Qed.

Lemma gets_run {A} (f : DVCLiveLogger -> A) (self : DVCLiveLogger) :
  gets f self = (Ok (f self), self).
Proof. reflexivity. Qed.

Lemma current_session_set_experiment (live : Live) (self : DVCLiveLogger) :
  current_session (set_experiment (Some live) self) = live.
Proof. reflexivity. Qed.

Lemma set_experiment_twice (e e' : option Live) (self : DVCLiveLogger) :
  set_experiment e' (set_experiment e self) = set_experiment e' self.
Proof. reflexivity. Qed.

(** One step of a method body, on the state it is applied to. *)
Ltac run_step :=
  first
    [ rewrite bind_run
    | rewrite ret_run
    | rewrite raise_run
    | rewrite gets_run
    | rewrite on_experiment_run
    | rewrite experiment_run
    | rewrite current_session_set_experiment
    | rewrite set_experiment_twice ];
  cbv beta iota.

Section LogMetricsRun.

Variable standardize_metric_name : string -> string -> string.

Lemma for_each_metrics_run (metrics : list (string * metric_val)) :
  forall (self : DVCLiveLogger) (live : Live),
    _experiment self = Some live ->
    for_each metrics (fun '(metric_name, metric_val) =>
      val <- match metric_val with
             | Tensor elems => item elems
             | Number x => ret x
             end ;;
      let name := standardize_metric_name metric_name __name__ in
      on_experiment (Live_log_metric name val)) self
    = (if convertible metrics then Ok tt else Raise ConversionError,
       set_experiment
         (Some (with_calls (metric_calls standardize_metric_name metrics) live)) self).
Proof.
  induction metrics as [|[metric_name v] rest IH]; intros self live Hlive.
  - simpl. rewrite with_calls_nil, set_experiment_current by exact Hlive. reflexivity.
  - assert (Hstep : forall x,
        (on_experiment (Live_log_metric (standardize_metric_name metric_name __name__) x) ;;
         for_each rest (fun '(metric_name, metric_val) =>
           val <- match metric_val with
                  | Tensor elems => item elems
                  | Number x => ret x
                  end ;;
           let name := standardize_metric_name metric_name __name__ in
           on_experiment (Live_log_metric name val))) self
        = (if convertible rest then Ok tt else Raise ConversionError,
           set_experiment
             (Some (with_calls
                      (Log_metric (standardize_metric_name metric_name __name__) x
                         :: metric_calls standardize_metric_name rest) live)) self)).
    { intros x. unfold bind at 1. rewrite on_experiment_run.
      unfold current_session. rewrite Hlive. simpl default.
      erewrite IH by reflexivity.
      unfold Live_log_metric. rewrite with_calls_cons. reflexivity. }
    destruct v as [x|[|x [|y elems]]].
    + simpl. unfold bind at 1. unfold ret at 1. apply Hstep.
    + simpl. unfold bind, raise. simpl.
      rewrite with_calls_nil, set_experiment_current by exact Hlive. reflexivity.
    + simpl. unfold bind at 1. unfold ret at 1. apply Hstep.
    + simpl. unfold bind, raise. simpl.
      rewrite with_calls_nil, set_experiment_current by exact Hlive. reflexivity.
Qed.

Lemma log_metrics_run (stack : list FrameInfo)
    (metrics : list (string * metric_val)) (step : option Z)
    (self : DVCLiveLogger) :
  log_metrics standardize_metric_name stack metrics step self =
    let live :=
      with_calls (metric_calls standardize_metric_name metrics)
        (Live_set_step step (current_session self)) in
    if negb (convertible metrics) then
      (Raise ConversionError, set_experiment (Some live) self)
    else if negb (_should_call_next_step stack) then
      (Ok tt, set_experiment (Some live) self)
    else if bool_decide (step = _latest_studio_step live) then
      match _latest_studio_step live with
      | Some n =>
          (Ok tt,
           set_experiment
             (Some (Live_next_step (Live_set_latest_studio_step (n - 1) live))) self)
      | None => (Raise TypeError, set_experiment (Some live) self)
      end
    else (Ok tt, set_experiment (Some (Live_next_step live)) self).
Proof.
  unfold log_metrics.
  unfold bind at 1. rewrite on_experiment_run.
  unfold bind at 1. erewrite for_each_metrics_run by reflexivity.
  set (live := with_calls _ _). simpl.
  destruct (convertible metrics); simpl; [|reflexivity].
  destruct (_should_call_next_step stack); simpl; [|reflexivity].
  unfold bind at 1. rewrite experiment_run. unfold current_session at 1 2. simpl.
  unfold bind at 1.
  destruct (bool_decide _).
  - unfold decrement_latest_studio_step. unfold bind at 1.
    rewrite experiment_run. unfold current_session at 1 2. simpl.
    destruct (_latest_studio_step (current_session self)) as [n|]; [|reflexivity].
    rewrite !on_experiment_run. reflexivity.
  - unfold ret at 1. rewrite on_experiment_run. reflexivity.
Qed.

End LogMetricsRun.

Lemma journal_current (self : DVCLiveLogger) :
  calls (current_session self) = journal self.
Proof. unfold current_session, journal. destruct (_experiment self); reflexivity. Qed.

Lemma new_calls_app (self self' : DVCLiveLogger) (cs : list call) :
  journal self' = journal self ++ cs -> new_calls self self' = cs.
Proof. unfold new_calls. intros ->. now rewrite drop_app_length. Qed.

Lemma journal_set_experiment (live : Live) (self : DVCLiveLogger) :
  journal (set_experiment (Some live) self) = calls live.
Proof. reflexivity. Qed.

Lemma calls_next_step (live : Live) :
  calls (Live_next_step live) = calls live ++ [Next_step].
Proof. reflexivity. Qed.

Lemma calls_set_latest_studio_step (n : Z) (live : Live) :
  calls (Live_set_latest_studio_step n live) = calls live ++ [Set_latest_studio_step n].
Proof. reflexivity. Qed.

Lemma calls_log_metrics_session
    (standardize_metric_name : string -> string -> string)
    (metrics : list (string * metric_val)) (step_arg : option Z)
    (self : DVCLiveLogger) :
  calls (with_calls (metric_calls standardize_metric_name metrics)
           (Live_set_step step_arg (current_session self)))
  = journal self ++ Set_step step_arg :: metric_calls standardize_metric_name metrics.
Proof. simpl. rewrite journal_current, <- app_assoc. reflexivity. Qed.

Ltac journal_simpl :=
  cbn [snd fst];
  rewrite ?journal_set_experiment, ?calls_next_step, ?calls_set_latest_studio_step,
    ?calls_log_metrics_session, <- ?app_assoc;
  cbn [app].

(** ** [log_metrics] *)

Lemma in_metric_calls (standardize_metric_name : string -> string -> string)
    (metrics : list (string * metric_val)) (c : call) :
  In c (metric_calls standardize_metric_name metrics) ->
  exists name val, c = Log_metric name val.
Proof.
  induction metrics as [|[metric_name [x|[|x [|y elems]]]] rest IH]; simpl;
    try tauto; (intros [<-|Hin]; [eauto|auto]).
Qed.

(** The calls one run of [log_metrics] adds to the journal. *)
Lemma log_metrics_new_calls
    (standardize_metric_name : string -> string -> string)
    (stack : list FrameInfo) (metrics : list (string * metric_val))
    (step_arg : option Z) (self : DVCLiveLogger) :
  let self' := snd (log_metrics standardize_metric_name stack metrics step_arg self) in
  let latest := _latest_studio_step (current_session self) in
  journal self' =
    journal self ++ Set_step step_arg
      :: metric_calls standardize_metric_name metrics
      ++ (if convertible metrics && _should_call_next_step stack then
            if bool_decide (step_arg = latest) then
              match latest with
              | Some n => [Set_latest_studio_step (n - 1); Next_step]
              | None => []
              end
            else [Next_step]
          else []).
Proof.
  intros self' latest. subst self' latest. rewrite log_metrics_run. cbv zeta.
  destruct (convertible metrics); cbn [negb andb].
  - destruct (_should_call_next_step stack); cbn [negb].
    + change (_latest_studio_step (with_calls _ (Live_set_step _ ?l)))
        with (_latest_studio_step l).
      destruct (bool_decide _).
      * destruct (_latest_studio_step _) as [n|]; journal_simpl; [reflexivity|].
        now rewrite app_nil_r.
      * journal_simpl. reflexivity.
    + journal_simpl. now rewrite app_nil_r.
  - journal_simpl. now rewrite app_nil_r.
Qed.

(** C10: every call of [log_metrics] first assigns the [step] argument, as it
    was given ([None] included), to the [step] property of the session.  The
    [log_metric] calls come after the assignment, and the decrement and
    [next_step] after those, if at all.  When the decider does not fire the
    property keeps the value it was assigned. *)
Theorem log_metrics_assigns_step
    (standardize_metric_name : string -> string -> string)
    (stack : list FrameInfo) (metrics : list (string * metric_val))
    (step_arg : option Z) (self : DVCLiveLogger) :
  let self' := snd (log_metrics standardize_metric_name stack metrics step_arg self) in
  let latest := _latest_studio_step (current_session self) in
  journal self' =
    journal self ++ Set_step step_arg
      :: metric_calls standardize_metric_name metrics
      ++ (if convertible metrics && _should_call_next_step stack then
            if bool_decide (step_arg = latest) then
              match latest with
              | Some n => [Set_latest_studio_step (n - 1); Next_step]
              | None => []
              end
            else [Next_step]
          else [])
  /\ (_should_call_next_step stack = false ->
      step <$> _experiment self' = Some step_arg).
Proof.
  cbv zeta. split; [apply log_metrics_new_calls|].
  intros Hquiet. rewrite log_metrics_run. cbv zeta. rewrite Hquiet.
  destruct (convertible metrics); reflexivity.
Qed.

(** C4 (as the code has it): during [log_metrics] the attribute
    [_latest_studio_step] is decremented by one exactly when the metrics
    were forwarded, the decider fired -- through any of its three frame
    names, which the code does not tell apart -- and the step being logged
    equals the last step reported to the backend. *)
Theorem log_metrics_decrement_iff
    (standardize_metric_name : string -> string -> string)
    (stack : list FrameInfo) (metrics : list (string * metric_val))
    (step_arg : option Z) (self : DVCLiveLogger) (n : Z) :
  let self' := snd (log_metrics standardize_metric_name stack metrics step_arg self) in
  In (Set_latest_studio_step n) (new_calls self self') <->
    convertible metrics = true
    /\ _should_call_next_step stack = true
    /\ step_arg = Some (n + 1)
    /\ _latest_studio_step (current_session self) = Some (n + 1).
Proof.
  intros self'. subst self'.
  rewrite (new_calls_app _ _ _ (log_metrics_new_calls _ stack metrics step_arg self)).
  cbn [In]. rewrite in_app_iff.
  split.
  - intros [Hc|[Hc|Hc]]; [discriminate Hc| |].
    + apply in_metric_calls in Hc as (? & ? & ?). discriminate.
    + destruct (convertible metrics); [|destruct Hc].
      destruct (_should_call_next_step stack); [|destruct Hc].
      cbn [andb] in Hc. case_bool_decide as Heq.
      * destruct (_latest_studio_step _) as [m|]; [|destruct Hc].
        destruct Hc as [Hc|[Hc|[]]]; [|discriminate Hc].
        injection Hc as <-. rewrite Heq. repeat split; f_equal; lia.
      * destruct Hc as [Hc|[]]. discriminate Hc.
  - intros (-> & -> & -> & ->). right. right. cbn [andb].
    rewrite bool_decide_eq_true_2 by reflexivity.
    left. f_equal. lia.
Qed.

(** C5 (as the code has it): [log_metrics] assigns the step it is given, and
    [next_step] then adds one when the metrics were forwarded without error
    and the decider fires.  So after a call with an integer step [s] the
    counter is [s + 1] in that case and [s] in every other case; and it is
    at least its value before the call exactly when [s] is at least that
    value, or the counter advanced and [s] is one less than that value. *)
Theorem log_metrics_step_counter
    (standardize_metric_name : string -> string -> string)
    (stack : list FrameInfo) (metrics : list (string * metric_val))
    (s : Z) (self : DVCLiveLogger) :
  let before := step_counter (current_session self) in
  let self' := snd (log_metrics standardize_metric_name stack metrics (Some s) self) in
  let advanced := convertible metrics && _should_call_next_step stack in
  step (current_session self') = Some (if advanced then s + 1 else s)
  /\ (before <= step_counter (current_session self')
      <-> before <= s \/ (advanced = true /\ before = s + 1)).
Proof.
  intros before self' advanced.
  assert (Hstep : step (current_session self')
                  = Some (if advanced then s + 1 else s)).
  { subst self' advanced. rewrite log_metrics_run. cbv zeta.
    change (_latest_studio_step (with_calls _ (Live_set_step _ ?l)))
      with (_latest_studio_step l).
    destruct (convertible metrics); cbn [negb andb]; [|reflexivity].
    destruct (_should_call_next_step stack); cbn [negb]; [|reflexivity].
    case_bool_decide as Heq.
    - destruct (_latest_studio_step (current_session self)) as [n|];
        [reflexivity|discriminate Heq].
    - reflexivity. }
  split; [exact Hstep|].
  change (step_counter (current_session self'))
    with (default 0 (step (current_session self'))).
  rewrite Hstep. cbn [from_option id]. clearbody before.
  subst advanced.
  destruct (convertible metrics && _should_call_next_step stack).
  - split.
    + intros H. destruct (Z.eq_dec before (s + 1)) as [He|Hne].
      * right. split; [reflexivity|exact He].
      * left. lia.
    + intros [H|[_ H]]; lia.
  - split.
    + intros H. left. exact H.
    + intros [H|[H _]]; [exact H|discriminate H].
Qed.

(** C6: [log_metrics] with the metrics [{"train/loss": 0.5}] and step 3,
    called below a frame named [update_train_epoch_metrics], returns and
    leaves the step counter of the session at 4. *)
Theorem log_metrics_train_epoch_step
    (standardize_metric_name : string -> string -> string)
    (stack : list FrameInfo) (self : DVCLiveLogger) :
  (exists f, In f stack /\ function f = "update_train_epoch_metrics") ->
  exists self' live',
    log_metrics standardize_metric_name stack
      [("train/loss", Number 0.5%float)] (Some 3) self = (Ok tt, self')
    /\ _experiment self' = Some live'
    /\ step live' = Some 4.
Proof.
  intros (f & Hin & Hf).
  assert (Hfire : _should_call_next_step stack = true).
  { apply decider_fires_iff. exists f. split; [exact Hin|].
    apply is_finalizer_spec. auto. }
  rewrite log_metrics_run. cbv zeta. rewrite Hfire. cbn [convertible forallb negb andb].
  destruct (_latest_studio_step _) as [n|]; case_bool_decide as Heq;
    try discriminate Heq;
    (eexists _, _; split; [reflexivity|]; split; reflexivity).
Qed.

(** ** Checkpoints and finalization *)

(** C9: [after_save_checkpoint] records the callback it is given whatever the
    model-logging policy is, and calls [log_artifact] with the checkpoint
    directory when the policy is ["all"], or is [True] with
    [save_top_k == -1], and in no other case. *)
Theorem after_save_checkpoint_spec
    (checkpoint_callback : ModelCheckpoint) (self : DVCLiveLogger) :
  exists self',
    after_save_checkpoint checkpoint_callback self = (Ok tt, self')
    /\ _checkpoint_callback self' = Some checkpoint_callback
    /\ _log_model self' = _log_model self
    /\ journal self' =
         journal self ++
           (if bool_decide
                 (_log_model self = LMStr "all"
                  \/ (_log_model self = LMBool true
                      /\ save_top_k checkpoint_callback = -1))
            then [Log_artifact (dirpath checkpoint_callback) None None None]
            else []).
Proof.
  unfold after_save_checkpoint.
  unfold bind at 1, modify at 1. unfold bind at 1, gets at 1.
  cbn [_log_model set_checkpoint_callback].
  assert (Hlog :
    on_experiment (Live_log_artifact (dirpath checkpoint_callback) None None None)
      (set_checkpoint_callback (Some checkpoint_callback) self)
    = (Ok tt,
       set_experiment
         (Some (Live_log_artifact (dirpath checkpoint_callback) None None None
                  (current_session self)))
         (set_checkpoint_callback (Some checkpoint_callback) self))).
  { rewrite on_experiment_run. reflexivity. }
  destruct (_log_model self) as [[|]|s] eqn:Hm; cbn [is_all is_True orb andb].
  - destruct (Z.eqb_spec (save_top_k checkpoint_callback) (-1)) as [Hk|Hk].
    + eexists. split; [exact Hlog|].
      rewrite bool_decide_eq_true_2 by (right; split; [reflexivity|exact Hk]).
      split; [reflexivity|]. split; [exact Hm|].
      rewrite journal_set_experiment. cbn. now rewrite journal_current.
    + eexists. split; [reflexivity|].
      rewrite bool_decide_eq_false_2 by (intros [?|[_ ?]]; [discriminate|contradiction]).
      rewrite app_nil_r. split; [reflexivity|]. split; [exact Hm|reflexivity].
  - eexists. split; [reflexivity|].
    rewrite bool_decide_eq_false_2 by (intros [?|[? _]]; discriminate).
    rewrite app_nil_r. split; [reflexivity|]. split; [exact Hm|reflexivity].
  - destruct (String.eqb_spec s "all") as [->|Hs].
    + eexists. split; [exact Hlog|].
      rewrite bool_decide_eq_true_2 by (left; reflexivity).
      split; [reflexivity|]. split; [exact Hm|].
      rewrite journal_set_experiment. cbn. now rewrite journal_current.
    + eexists. split; [reflexivity|].
      rewrite bool_decide_eq_false_2
        by (intros [[= ?]|[? _]]; [contradiction|discriminate]).
      rewrite app_nil_r. split; [reflexivity|]. split; [exact Hm|reflexivity].
Qed.

(** C3 (as the code has it): with a recorded checkpoint callback, [finalize]
    under the policy ["all"] calls [log_artifact] exactly once, with the
    best-model path and [name="best"]; the call with the checkpoint
    directory comes before it only under the policy [True].  [end] closes
    the run in both cases. *)
Theorem finalize_artifacts
    (status : string) (checkpoint_callback : ModelCheckpoint)
    (self : DVCLiveLogger) :
  _checkpoint_callback self = Some checkpoint_callback ->
  _log_model self = LMStr "all" \/ _log_model self = LMBool true ->
  exists self',
    finalize status self = (Ok tt, self')
    /\ journal self' =
         journal self
         ++ (if bool_decide (_log_model self = LMBool true)
             then [Log_artifact (dirpath checkpoint_callback) None None None]
             else [])
         ++ [Log_artifact (best_model_path checkpoint_callback)
               (Some "best") (Some "model") (Some false);
             End_run].
Proof.
  intros Hcb Hm. unfold finalize.
  do 4 run_step. rewrite Hcb.
  destruct Hm as [Hm|Hm]; rewrite Hm;
    cbn [is_True in_True_all is_all orb String.eqb Ascii.eqb Bool.eqb];
    unfold getattr; repeat run_step.
  - rewrite bool_decide_eq_false_2 by discriminate.
    eexists. split; [reflexivity|].
    rewrite journal_set_experiment. cbn. now rewrite journal_current, <- !app_assoc.
  - rewrite bool_decide_eq_true_2 by reflexivity.
    eexists. split; [reflexivity|].
    rewrite journal_set_experiment. cbn. now rewrite journal_current, <- !app_assoc.
Qed.

(** C8: when model logging is enabled ([log_model] is [True] or ["all"]) and
    no checkpoint callback was ever recorded, [finalize] fails with the
    attribute error of reading a path of [None]; the error leaves
    [finalize], and neither [log_artifact] nor [end] has been called. *)
Theorem finalize_without_callback (status : string) (self : DVCLiveLogger) :
  _log_model self = LMBool true \/ _log_model self = LMStr "all" ->
  _checkpoint_callback self = None ->
  fst (finalize status self) = Raise AttributeError
  /\ journal (snd (finalize status self)) = journal self.
Proof.
  intros Hm Hcb. unfold finalize.
  do 4 run_step. rewrite Hcb.
  destruct Hm as [Hm|Hm]; rewrite Hm;
    cbn [is_True in_True_all is_all orb String.eqb Ascii.eqb Bool.eqb];
    unfold getattr; repeat run_step; cbn [fst snd].
  - split; [reflexivity|]. rewrite journal_set_experiment. apply journal_current.
  - split; reflexivity.
Qed.

(** ** [log_hyperparams] *)

(** C2 (as the code has it): [log_hyperparams] keeps the nesting.  For a
    plain mapping without callables and a sanitizer that works value by
    value, the mapping handed to [log_params] is the input with its leaves
    sanitized in place: every key path of the input leads to the same place
    in the result, so no leaf is lost, and no leaf is moved to the top
    level. *)
Theorem log_hyperparams_keeps_nesting
    (_convert_params _sanitize_callable_params :
       gmap string pyval -> gmap string pyval)
    (_sanitize_params : gmap string scalar -> gmap string scalar)
    (sanitize_value : scalar -> scalar)
    (params : gmap string pyval) (self : DVCLiveLogger) :
  _sanitize_callable_params (_convert_params params) = params ->
  (forall m, _sanitize_params m = sanitize_value <$> m) ->
  exists self',
    log_hyperparams _convert_params _sanitize_callable_params _sanitize_params
      params self = (Ok tt, self')
    /\ journal self' =
         journal self ++ [Log_params (sanitize_leaves sanitize_value <$> params)]
    /\ forall p : list string,
         lookup_path p (PDict (sanitize_leaves sanitize_value <$> params))
         = sanitize_leaves sanitize_value <$> lookup_path p (PDict params).
Proof.
  intros Hpre Hsan. unfold log_hyperparams. cbv zeta.
  rewrite Hpre, (sanitize_dict_leaves _ _ Hsan), on_experiment_run.
  eexists. split; [reflexivity|]. split.
  - rewrite journal_set_experiment. cbn. now rewrite journal_current.
  - intros p. apply (lookup_path_sanitize_leaves sanitize_value p (PDict params)).
Qed.

Lemma hparams_nested_sanitized :
  sanitize_leaves sanitize_scalar <$> hparams_nested = hparams_nested.
Proof. vm_compute. reflexivity. Qed.

Lemma hparams_nested_not_flat : hparams_nested <> hparams_flat.
Proof.
  intros H. apply (f_equal (fun m => m !! "b")) in H.
  vm_compute in H. discriminate H.
Qed.

(** ** The spec's examples on concrete runs *)

(** C2, the input of the spec: [{"a": {"b": 1}, "c": 2}] reaches
    [log_params] as it is, still nested; it is not [{"b": 1, "c": 2}], and
    ["b"] is not a key of it. *)
Lemma log_hyperparams_nested_example :
  journal
    (snd (log_hyperparams convert_params_model sanitize_callable_params_model
            sanitize_params_model hparams_nested (new_logger (LMBool false))))
  = [Log_params hparams_nested]
  /\ hparams_nested <> hparams_flat
  /\ hparams_nested !! "b" = None.
Proof.
  split; [|split].
  - unfold log_hyperparams, convert_params_model, sanitize_callable_params_model.
    cbv zeta.
    rewrite (sanitize_dict_leaves sanitize_params_model sanitize_scalar)
      by reflexivity.
    rewrite hparams_nested_sanitized, on_experiment_run. reflexivity.
  - exact hparams_nested_not_flat.
  - vm_compute. reflexivity.
Qed.

Lemma log_hyperparams_keeps_nesting_witness :
  sanitize_callable_params_model (convert_params_model hparams_nested) = hparams_nested
  /\ (forall m, sanitize_params_model m = sanitize_scalar <$> m)
  /\ exists self',
       log_hyperparams convert_params_model sanitize_callable_params_model
         sanitize_params_model hparams_nested (new_logger (LMBool false))
       = (Ok tt, self')
       /\ journal self' =
            journal (new_logger (LMBool false))
            ++ [Log_params (sanitize_leaves sanitize_scalar <$> hparams_nested)]
       /\ forall p : list string,
            lookup_path p (PDict (sanitize_leaves sanitize_scalar <$> hparams_nested))
            = sanitize_leaves sanitize_scalar <$> lookup_path p (PDict hparams_nested).
Proof.
  split; [reflexivity|]. split; [reflexivity|].
  apply (log_hyperparams_keeps_nesting convert_params_model
           sanitize_callable_params_model sanitize_params_model sanitize_scalar
           hparams_nested (new_logger (LMBool false))); reflexivity.
Defined.

(** C3, policy ["all"]: [finalize] makes one [log_artifact] call, not two. *)
Lemma finalize_all_logs_best_only :
  let self := logger_with_checkpoint (LMStr "all") in
  let r := finalize "success" self in
  fst r = Ok tt
  /\ artifact_calls (new_calls self (snd r))
     = [Log_artifact "ckpts/best.ckpt" (Some "best") (Some "model") (Some false)]
  /\ length (artifact_calls (new_calls self (snd r))) <> 2%nat.
Proof. vm_compute. repeat split. discriminate. Qed.

Lemma finalize_artifacts_witness :
  let self := logger_with_checkpoint (LMStr "all") in
  _checkpoint_callback self = Some checkpoints
  /\ (_log_model self = LMStr "all" \/ _log_model self = LMBool true)
  /\ exists self',
       finalize "success" self = (Ok tt, self')
       /\ journal self' =
            journal self
            ++ (if bool_decide (_log_model self = LMBool true)
                then [Log_artifact (dirpath checkpoints) None None None]
                else [])
            ++ [Log_artifact (best_model_path checkpoints)
                  (Some "best") (Some "model") (Some false);
                End_run].
Proof.
  cbv zeta. split; [reflexivity|]. split; [left; reflexivity|].
  apply (finalize_artifacts "success" checkpoints
           (logger_with_checkpoint (LMStr "all"))); [reflexivity|left; reflexivity].
Defined.

(** C4, on a train-step stack: the last reported step is decremented although
    no frame is [log_eval_end_metrics]. *)
Lemma log_metrics_decrements_on_train_step :
  let self := logger_on (session_at 3) in
  let self' :=
    snd (log_metrics metric_name_model stack_train_step
           [("train/loss", Number 0.5%float)] (Some 3) self) in
  (forall f, In f stack_train_step -> function f <> "log_eval_end_metrics")
  /\ _latest_studio_step (current_session self) = Some 3
  /\ new_calls self self'
     = [Set_step (Some 3); Log_metric "train/loss" 0.5%float;
        Set_latest_studio_step 2; Next_step].
Proof.
  cbv zeta. split; [|split].
  - intros f [<-|[<-|[<-|[]]]]; discriminate.
  - reflexivity.
  - vm_compute. reflexivity.
Qed.

(** C5, two calls outside the finalizer frames: the counter goes from 5
    down to 2. *)
Lemma step_counter_goes_down :
  let self1 :=
    snd (log_metrics metric_name_model stack_user_callback [] (Some 5)
           (new_logger (LMBool false))) in
  let self2 :=
    snd (log_metrics metric_name_model stack_user_callback [] (Some 2) self1) in
  step_counter (current_session self1) = 5
  /\ step_counter (current_session self2) = 2
  /\ ~ step_counter (current_session self1) <= step_counter (current_session self2).
Proof. vm_compute. repeat split. intros H. now apply H. Qed.

Lemma log_metrics_train_epoch_step_witness :
  (exists f, In f stack_train_epoch /\ function f = "update_train_epoch_metrics")
  /\ exists self' live',
       log_metrics metric_name_model stack_train_epoch
         [("train/loss", Number 0.5%float)] (Some 3) (new_logger (LMBool false))
       = (Ok tt, self')
       /\ _experiment self' = Some live'
       /\ step live' = Some 4.
Proof.
  assert (H : exists f, In f stack_train_epoch
                        /\ function f = "update_train_epoch_metrics").
  { exists (frame "update_train_epoch_metrics"). split; [simpl; auto|reflexivity]. }
  split; [exact H|].
  exact (log_metrics_train_epoch_step metric_name_model stack_train_epoch
           (new_logger (LMBool false)) H).
Defined.

Lemma finalize_without_callback_witness :
  let self := new_logger (LMStr "all") in
  (_log_model self = LMBool true \/ _log_model self = LMStr "all")
  /\ _checkpoint_callback self = None
  /\ fst (finalize "success" self) = Raise AttributeError
  /\ journal (snd (finalize "success" self)) = journal self.
Proof.
  cbv zeta. split; [right; reflexivity|]. split; [reflexivity|].
  apply (finalize_without_callback "success" (new_logger (LMStr "all")));
    [right; reflexivity|reflexivity].
Defined.

(** ** Metric names: strip, then replace *)

Section MetricNameFacts.

Variable module_prefix : string.
Variables separator canonical : Ascii.ascii.

Lemma occurs_without_prefix (c : Ascii.ascii) (prefix : string) :
  forall name rest : string,
    without_prefix prefix name = Some rest ->
    occurs c prefix = true -> occurs c name = true.
Proof.
  induction prefix as [|a prefix IH]; intros name rest Hp Hc; [discriminate Hc|].
  destruct name as [|b name]; [discriminate Hp|].
  simpl in Hp, Hc |- *.
  destruct (Ascii.eqb_spec a b) as [->|Hab]; [|discriminate Hp].
  apply orb_true_iff in Hc as [Hc|Hc].
  - now rewrite Hc.
  - rewrite (IH name rest Hp Hc). apply orb_true_r.
Qed.

Lemma replace_separators_clean (name : string) :
  separator <> canonical ->
  occurs separator (replace_separators separator canonical name) = false.
Proof.
  intros Hne. induction name as [|c name IH]; [reflexivity|].
  simpl. rewrite IH, orb_false_r.
  destruct (Ascii.eqb_spec c separator) as [->|Hc].
  - now apply Ascii.eqb_neq.
  - apply Ascii.eqb_neq. congruence.
Qed.

Lemma replace_separators_id (name : string) :
  occurs separator name = false ->
  replace_separators separator canonical name = name.
Proof.
  induction name as [|c name IH]; [reflexivity|].
  simpl. intros [Hc Hrest]%orb_false_iff.
  rewrite (IH Hrest). rewrite Ascii.eqb_sym, Hc. reflexivity.
Qed.

(** When the prefix holds a separator character and the two separators
    differ, a normalized name is left as it is. *)
Lemma normalize_metric_name_idempotent_if (name : string) :
  occurs separator module_prefix = true ->
  separator <> canonical ->
  normalize_metric_name module_prefix separator canonical
    (normalize_metric_name module_prefix separator canonical name)
  = normalize_metric_name module_prefix separator canonical name.
Proof.
  intros Hp Hne. unfold normalize_metric_name at 1.
  set (m := normalize_metric_name module_prefix separator canonical name).
  assert (Hm : occurs separator m = false)
    by (apply replace_separators_clean; exact Hne).
  unfold strip_module_prefix.
  destruct (without_prefix module_prefix m) as [rest|] eqn:Hw; simpl.
  - rewrite (occurs_without_prefix separator module_prefix m rest Hw Hp) in Hm.
    discriminate Hm.
  - now apply replace_separators_id.
Qed.

End MetricNameFacts.

(** With a prefix free of separators a second pass strips again. *)
Example normalize_metric_name_twice :
  normalize_metric_name "dvclive." "_"%char "/"%char "dvclive.dvclive.loss" = "dvclive.loss"
  /\ normalize_metric_name "dvclive." "_"%char "/"%char "dvclive.loss" = "loss".
Proof. split; reflexivity. Qed.

(** * Further properties *)

(** ** The methods in closed form *)

Lemma log_hyperparams_run
    (_convert_params _sanitize_callable_params :
       gmap string pyval -> gmap string pyval)
    (_sanitize_params : gmap string scalar -> gmap string scalar)
    (params : gmap string pyval) (self : DVCLiveLogger) :
  log_hyperparams _convert_params _sanitize_callable_params _sanitize_params
    params self
  = (Ok tt,
     set_experiment
       (Some (Live_log_params
                (sanitize_dict _sanitize_params
                   (_sanitize_callable_params (_convert_params params)))
                (current_session self))) self).
Proof. unfold log_hyperparams. cbv zeta. apply on_experiment_run. Qed.

(** Does [after_save_checkpoint] log the checkpoint directory? *)
Lemma after_save_checkpoint_run
    (checkpoint_callback : ModelCheckpoint) (self : DVCLiveLogger) :
  after_save_checkpoint checkpoint_callback self
  = (Ok tt,
     if is_all (_log_model self)
        || (is_True (_log_model self)
            && Z.eqb (save_top_k checkpoint_callback) (-1))
     then
       set_experiment
         (Some (Live_log_artifact (dirpath checkpoint_callback) None None None
                  (current_session self)))
         (set_checkpoint_callback (Some checkpoint_callback) self)
     else set_checkpoint_callback (Some checkpoint_callback) self).
Proof.
  unfold after_save_checkpoint, modify.
  rewrite bind_run. cbv beta iota. rewrite bind_run, gets_run. cbv beta iota.
  cbn [_log_model set_checkpoint_callback].
  destruct (is_all (_log_model self)
            || (is_True (_log_model self)
                && Z.eqb (save_top_k checkpoint_callback) (-1))).
  - rewrite on_experiment_run. reflexivity.
  - reflexivity.
Qed.

Lemma finalize_run (status : string) (self : DVCLiveLogger) :
  finalize status self =
    let live := current_session self in
    match _checkpoint_callback self with
    | Some c =>
        let live :=
          if is_True (_log_model self)
          then Live_log_artifact (dirpath c) None None None live
          else live in
        let live :=
          if in_True_all (_log_model self)
          then Live_log_artifact (best_model_path c)
                 (Some "best") (Some "model") (Some false) live
          else live in
        (Ok tt, set_experiment (Some (Live_end live)) self)
    | None =>
        if is_True (_log_model self)
        then (Raise AttributeError, set_experiment (Some live) self)
        else if in_True_all (_log_model self)
        then (Raise AttributeError, self)
        else (Ok tt, set_experiment (Some (Live_end live)) self)
    end.
Proof.
  unfold finalize. do 4 run_step. cbv zeta. unfold in_True_all.
  destruct (_checkpoint_callback self) as [c|];
    destruct (is_True (_log_model self));
    destruct (is_all (_log_model self)); cbn [orb];
    unfold getattr; repeat run_step; reflexivity.
Qed.

(** ** More on the decider *)

Lemma decider_names_iff (stack : list FrameInfo) :
  _should_call_next_step stack = true <->
  exists n, In n (map function stack) /\ In n finalizer_names.
Proof.
  rewrite decider_fires_iff. unfold is_finalizer. split.
  - intros (f & Hin & Hf). apply existsb_exists in Hf as (n & Hn & Heq).
    apply String.eqb_eq in Heq. subst n.
    exists (function f). split; [now apply in_map|exact Hn].
  - intros (n & Hin & Hn). apply in_map_iff in Hin as (f & <- & Hin).
    exists f. split; [exact Hin|]. apply existsb_exists.
    exists (function f). split; [exact Hn|apply String.eqb_refl].
Qed.

(** X1: the decider reads nothing of the stack but the set of function names
    on it: two snapshots with the same names give the same answer, whatever
    the order of the frames, their number, their files and their lines. *)
Theorem decider_depends_on_names (stack1 stack2 : list FrameInfo) :
  (forall n, In n (map function stack1) <-> In n (map function stack2)) ->
  _should_call_next_step stack1 = _should_call_next_step stack2.
Proof.
  intros Hnames. apply eq_true_iff_eq. rewrite !decider_names_iff.
  split; intros (n & Hin & Hn); exists n; (split; [now apply Hnames|exact Hn]).
Qed.

(** ** More on [log_metrics] *)

Lemma metric_calls_forwarded
    (standardize_metric_name : string -> string -> string)
    (metrics : list (string * metric_val)) (cs : list call) :
  Forall2 (fun entry c => forwarded standardize_metric_name entry = Some c)
    metrics cs ->
  metric_calls standardize_metric_name metrics = cs
  /\ convertible metrics = true.
Proof.
  induction 1 as [|[metric_name v] c metrics cs Hc _ [IHc IHv]]; [split; reflexivity|].
  destruct v as [x|[|x [|y elems]]]; simpl in Hc; try discriminate Hc;
    injection Hc as <-; simpl; rewrite IHc; (split; [reflexivity|exact IHv]).
Qed.

Lemma convertible_forwarded
    (standardize_metric_name : string -> string -> string)
    (metrics : list (string * metric_val)) :
  convertible metrics = true ->
  Forall2 (fun entry c => forwarded standardize_metric_name entry = Some c)
    metrics (metric_calls standardize_metric_name metrics).
Proof.
  induction metrics as [|[metric_name v] metrics IH]; [constructor|].
  destruct v as [x|[|x [|y elems]]]; simpl; try discriminate;
    intros Hc; (constructor; [reflexivity|now apply IH]).
Qed.

Lemma metric_calls_stop
    (standardize_metric_name : string -> string -> string)
    (good rest : list (string * metric_val)) (bad : string * metric_val)
    (cs : list call) :
  Forall2 (fun entry c => forwarded standardize_metric_name entry = Some c)
    good cs ->
  forwarded standardize_metric_name bad = None ->
  metric_calls standardize_metric_name (good ++ bad :: rest) = cs
  /\ convertible (good ++ bad :: rest) = false.
Proof.
  intros Hgood Hbad.
  induction Hgood as [|[metric_name v] c good cs Hc _ [IHc IHv]].
  - destruct bad as [metric_name [x|[|x [|y elems]]]]; simpl in Hbad;
      try discriminate Hbad; split; reflexivity.
  - destruct v as [x|[|x [|y elems]]]; simpl in Hc; try discriminate Hc;
      injection Hc as <-; cbn [app]; simpl; rewrite IHc; (split; [reflexivity|exact IHv]).
Qed.

(** X3: a tensor that does not convert stops [log_metrics] where it stands.
    The step has been assigned and the entries before the tensor have been
    forwarded, each once and in order; the entries after it are not, and
    [next_step] is not called, finalizer frame or not. *)
Theorem log_metrics_stops_at_bad_tensor
    (standardize_metric_name : string -> string -> string)
    (stack : list FrameInfo) (good rest : list (string * metric_val))
    (metric_name : string) (elems : list float) (cs : list call)
    (step_arg : option Z) (self : DVCLiveLogger) :
  Forall2 (fun entry c => forwarded standardize_metric_name entry = Some c)
    good cs ->
  length elems <> 1%nat ->
  let r :=
    log_metrics standardize_metric_name stack
      (good ++ (metric_name, Tensor elems) :: rest) step_arg self in
  fst r = Raise ConversionError
  /\ journal (snd r) = journal self ++ Set_step step_arg :: cs
  /\ step (current_session (snd r)) = step_arg.
Proof.
  intros Hgood Hlen r. subst r.
  assert (Hbad : forwarded standardize_metric_name (metric_name, Tensor elems) = None).
  { destruct elems as [|x [|y elems]]; [reflexivity|now contradict Hlen|reflexivity]. }
  destruct (metric_calls_stop _ good rest _ cs Hgood Hbad) as [Hcs Hconv].
  rewrite log_metrics_run. cbv zeta. rewrite Hconv, Hcs. cbn [negb fst snd].
  split; [reflexivity|]. split; [|reflexivity].
  rewrite journal_set_experiment. cbn. now rewrite journal_current, <- app_assoc.
Qed.

(** X4: when every value converts, [log_metrics] forwards every entry of
    [metrics] exactly once, in the order of the mapping, under the name
    [standardize_metric_name] gives it for the framework
    ["dvclive.lightning"], a one-element tensor as its element; whatever
    follows is no [log_metric] call. *)
Theorem log_metrics_forwards_each_once
    (standardize_metric_name : string -> string -> string)
    (stack : list FrameInfo) (metrics : list (string * metric_val))
    (step_arg : option Z) (self : DVCLiveLogger) :
  convertible metrics = true ->
  let self' := snd (log_metrics standardize_metric_name stack metrics step_arg self) in
  exists cs tail,
    Forall2 (fun entry c => forwarded standardize_metric_name entry = Some c)
      metrics cs
    /\ journal self' = journal self ++ Set_step step_arg :: cs ++ tail
    /\ forall name val, ~ In (Log_metric name val) tail.
Proof.
  intros Hconv self'. subst self'.
  eexists _, _. split; [apply convertible_forwarded, Hconv|].
  split; [apply log_metrics_new_calls|].
  intros name val. rewrite Hconv. cbn [andb].
  destruct (_should_call_next_step stack); [|intros []].
  destruct (bool_decide _); [destruct (_latest_studio_step _)|];
    cbn [In]; intros H; repeat (destruct H as [H|H]; try discriminate H); exact H.
Qed.

(** X5: called from a stack without any of the three frame names,
    [log_metrics] never advances the run: it makes no [next_step] call, does
    not touch the last reported step, leaves the step at the value it
    assigned, and cannot fail on the decrement. *)
Theorem log_metrics_outside_finalizers
    (standardize_metric_name : string -> string -> string)
    (stack : list FrameInfo) (metrics : list (string * metric_val))
    (step_arg : option Z) (self : DVCLiveLogger) :
  (forall f, In f stack -> ~ In (function f) finalizer_names) ->
  let r := log_metrics standardize_metric_name stack metrics step_arg self in
  ~ In Next_step (new_calls self (snd r))
  /\ (forall n, ~ In (Set_latest_studio_step n) (new_calls self (snd r)))
  /\ _latest_studio_step (current_session (snd r))
     = _latest_studio_step (current_session self)
  /\ step (current_session (snd r)) = step_arg
  /\ fst r <> Raise TypeError.
Proof.
  intros Hquiet r. subst r.
  assert (Hd : _should_call_next_step stack = false).
  { destruct (_should_call_next_step stack) eqn:E; [|reflexivity].
    apply decider_names_iff in E as (n & Hin & Hn).
    apply in_map_iff in Hin as (f & <- & Hin). now destruct (Hquiet f Hin). }
  rewrite (new_calls_app _ _ _ (log_metrics_new_calls _ stack metrics step_arg self)).
  rewrite log_metrics_run. cbv zeta. rewrite Hd, andb_false_r, app_nil_r.
  assert (Hm : forall c, (forall name val, c <> Log_metric name val) -> c <> Set_step step_arg ->
             ~ In c (Set_step step_arg :: metric_calls standardize_metric_name metrics)).
  { intros c Hc Hs [Heq|Hin]; [now apply Hs|].
    apply in_metric_calls in Hin as (name & val & ->). now apply (Hc name val). }
  split; [apply Hm; discriminate|].
  split; [intros n; apply Hm; discriminate|].
  destruct (convertible metrics); cbn [negb fst snd];
    (split; [reflexivity|]; split; [reflexivity|discriminate]).
Qed.

(** ** More on checkpoints and [finalize] *)

Lemma calls_end (live : Live) : calls (Live_end live) = calls live ++ [End_run].
Proof. reflexivity. Qed.

Lemma calls_log_artifact (path : string) (name type : option string)
    (cache : option bool) (live : Live) :
  calls (Live_log_artifact path name type cache live)
  = calls live ++ [Log_artifact path name type cache].
Proof. reflexivity. Qed.

Lemma is_True_iff (m : log_model) : is_True m = true <-> m = LMBool true.
Proof. destruct m as [[|]|s]; simpl; split; congruence. Qed.

Lemma is_all_iff (m : log_model) : is_all m = true <-> m = LMStr "all".
Proof.
  destruct m as [b|s]; simpl; [split; congruence|].
  rewrite String.eqb_eq. split; congruence.
Qed.

(** X6: when the policy is neither [True] nor ["all"], [finalize] only ends
    the run: it calls [end], logs no artifact, and does not need a
    checkpoint callback. *)
Theorem finalize_logging_disabled (status : string) (self : DVCLiveLogger) :
  _log_model self <> LMBool true ->
  _log_model self <> LMStr "all" ->
  exists self',
    finalize status self = (Ok tt, self')
    /\ journal self' = journal self ++ [End_run]
    /\ _checkpoint_callback self' = _checkpoint_callback self.
Proof.
  intros HT Hall. rewrite finalize_run. cbv zeta. unfold in_True_all.
  destruct (is_True (_log_model self)) eqn:ET; [now apply is_True_iff in ET|].
  destruct (is_all (_log_model self)) eqn:EA; [now apply is_all_iff in EA|].
  cbn [orb].
  destruct (_checkpoint_callback self) as [c|] eqn:Hc;
    (eexists; split; [reflexivity|]; split; [|exact Hc]);
    now rewrite journal_set_experiment, calls_end, journal_current.
Qed.

Lemma after_save_checkpoint_fields
    (checkpoint_callback : ModelCheckpoint) (self : DVCLiveLogger) :
  let self' := snd (after_save_checkpoint checkpoint_callback self) in
  _checkpoint_callback self' = Some checkpoint_callback
  /\ _log_model self' = _log_model self
  /\ journal self' =
       journal self
       ++ (if is_all (_log_model self)
              || (is_True (_log_model self)
                  && Z.eqb (save_top_k checkpoint_callback) (-1))
           then [Log_artifact (dirpath checkpoint_callback) None None None]
           else []).
Proof.
  cbv zeta. rewrite after_save_checkpoint_run. cbn [snd].
  destruct (is_all (_log_model self)
            || (is_True (_log_model self)
                && Z.eqb (save_top_k checkpoint_callback) (-1))).
  - split; [reflexivity|]. split; [reflexivity|].
    now rewrite journal_set_experiment, calls_log_artifact, journal_current.
  - split; [reflexivity|]. split; [reflexivity|]. now rewrite app_nil_r.
Qed.

(** X7: a checkpoint save followed by [finalize] never fails, whatever the
    policy.  Together they log the checkpoint directory at the save (policy
    ["all"], or [True] with [save_top_k == -1]), the directory again at the
    end (policy [True]), then the best model (policy [True] or ["all"]), and
    they end the run; so under [True] with [save_top_k == -1] the directory
    is logged twice. *)
Theorem save_then_finalize
    (checkpoint_callback : ModelCheckpoint) (status : string)
    (self : DVCLiveLogger) :
  let m := _log_model self in
  let r := finalize status (snd (after_save_checkpoint checkpoint_callback self)) in
  fst r = Ok tt
  /\ journal (snd r) =
       journal self
       ++ (if is_all m || (is_True m && Z.eqb (save_top_k checkpoint_callback) (-1))
           then [Log_artifact (dirpath checkpoint_callback) None None None]
           else [])
       ++ (if is_True m
           then [Log_artifact (dirpath checkpoint_callback) None None None]
           else [])
       ++ (if in_True_all m
           then [Log_artifact (best_model_path checkpoint_callback)
                   (Some "best") (Some "model") (Some false)]
           else [])
       ++ [End_run].
Proof.
  cbv zeta.
  destruct (after_save_checkpoint_fields checkpoint_callback self)
    as (Hcb & Hm & Hj).
  set (self1 := snd (after_save_checkpoint checkpoint_callback self)) in *.
  rewrite finalize_run. cbv zeta. rewrite Hcb, Hm. cbn [fst snd].
  split; [reflexivity|].
  rewrite journal_set_experiment, calls_end.
  destruct (in_True_all (_log_model self)); destruct (is_True (_log_model self));
    rewrite ?calls_log_artifact, journal_current, Hj, <- ?app_assoc;
    reflexivity.
Qed.

(** ** The property [experiment] *)

(** X8: the session is created at most once.  The property gives the
    session the logger already holds and leaves the logger as it is; when
    there is none it creates one from [_live_init] and stores it, and the
    next access gives that same session without any change. *)
Theorem experiment_created_once (self : DVCLiveLogger) :
  let r := experiment self in
  fst r = Ok (current_session self)
  /\ _experiment (snd r) = Some (current_session self)
  /\ experiment (snd r) = r
  /\ (forall live, _experiment self = Some live -> r = (Ok live, self))
  /\ (_experiment self = None -> current_session self = Live_new (_live_init self)).
Proof.
  cbv zeta. unfold experiment, current_session.
  destruct (_experiment self) as [live|] eqn:E; cbn.
  - rewrite E. repeat split; try reflexivity.
    + intros live' [= <-]. reflexivity.
    + discriminate.
  - repeat split; try reflexivity. discriminate.
Qed.

(** ** The constructor *)

(** X15: what [__init__] establishes.  A session passed in is the one the
    logger uses, also under [report="notebook"]; without one, the session
    used is built from the constructor's own keyword arguments, and it
    exists already after construction exactly when [report] is
    ["notebook"].  No checkpoint callback is recorded yet. *)
Theorem constructor_establishes
    (run_name : option string) (prefix : string) (m : log_model)
    (given : option Live) (dir_arg : option string) (resume_arg : bool)
    (report_arg : option string) (save_dvc_exp_arg dvcyaml_arg cache_images_arg : bool) :
  let self :=
    __init__ run_name prefix m given dir_arg resume_arg report_arg
      save_dvc_exp_arg dvcyaml_arg cache_images_arg in
  let args :=
    {| resume := resume_arg; report := report_arg;
       save_dvc_exp := save_dvc_exp_arg; dvcyaml := dvcyaml_arg;
       cache_images := cache_images_arg; dir := dir_arg |} in
  current_session self = default (Live_new args) given
  /\ (is_Some (_experiment self)
      <-> is_Some given \/ report_arg = Some "notebook")
  /\ _checkpoint_callback self = None
  /\ _log_model self = m
  /\ version self = run_name.
Proof.
  cbv zeta. unfold __init__, current_session, version. cbn.
  case_bool_decide as Hr; destruct given as [live|]; cbn;
    (split; [reflexivity|]; split; [|repeat split]).
  - split; [intros _; left; eauto|intros _; eauto].
  - split; [intros _; right; exact Hr|intros _; eauto].
  - split; [intros _; left; eauto|intros _; eauto].
  - split; [intros []; discriminate|intros [[]|]; [discriminate|contradiction]].
Qed.

(** ** Sequences of calls *)

Section RequestFacts.

Variable _convert_params : gmap string pyval -> gmap string pyval.
Variable _sanitize_callable_params : gmap string pyval -> gmap string pyval.
Variable _sanitize_params : gmap string scalar -> gmap string scalar.
Variable standardize_metric_name : string -> string -> string.

Local Abbreviation run1 :=
  (run_request _convert_params _sanitize_callable_params _sanitize_params
     standardize_metric_name).
Local Abbreviation run_all :=
  (run_requests _convert_params _sanitize_callable_params _sanitize_params
     standardize_metric_name).

(** What one call leaves of the logger. *)
Lemma run_request_effect (req : request) (self : DVCLiveLogger) :
  let self' := snd (run1 req self) in
  (_prefix self' = _prefix self
   /\ _live_init self' = _live_init self
   /\ _version self' = _version self
   /\ _log_model self' = _log_model self
   /\ init_args (current_session self') = init_args (current_session self))
  /\ (journal self `prefix_of` journal self'
      /\ (is_Some (_experiment self) -> is_Some (_experiment self')))
  /\ _checkpoint_callback self' = last_saved [req] (_checkpoint_callback self).
Proof.
  cbv zeta. destruct req as [params|stack metrics step_arg|c|status]; cbn [run_request last_saved].
  - rewrite log_hyperparams_run. cbn [snd].
    repeat split; try reflexivity; [|intros _; eexists; reflexivity].
    rewrite journal_set_experiment. unfold Live_log_params, Live_record. cbn [calls].
    rewrite journal_current. now eexists.
  - split; [|split; [split|]].
    + rewrite log_metrics_run. cbv zeta.
      destruct (convertible metrics); cbn [negb];
        [destruct (_should_call_next_step stack); cbn [negb];
           [destruct (bool_decide _); [destruct (_latest_studio_step _)|]|]|];
        repeat split; reflexivity.
    + rewrite (log_metrics_new_calls standardize_metric_name stack metrics step_arg self).
      now eexists.
    + intros _. rewrite log_metrics_run. cbv zeta.
      destruct (convertible metrics); cbn [negb];
        [destruct (_should_call_next_step stack); cbn [negb];
           [destruct (bool_decide _); [destruct (_latest_studio_step _)|]|]|];
        eexists; reflexivity.
    + rewrite log_metrics_run. cbv zeta.
      destruct (convertible metrics); cbn [negb];
        [destruct (_should_call_next_step stack); cbn [negb];
           [destruct (bool_decide _); [destruct (_latest_studio_step _)|]|]|];
        reflexivity.
  - destruct (after_save_checkpoint_fields c self) as (Hcb & Hm & Hj).
    rewrite Hcb, Hj. split; [|split; [split|]]; try reflexivity.
    + rewrite after_save_checkpoint_run. cbn [snd].
      destruct (_ || _); repeat split; reflexivity.
    + now eexists.
    + rewrite after_save_checkpoint_run. cbn [snd].
      destruct (_ || _); [intros _; eexists; reflexivity|intros H; exact H].
  - rewrite finalize_run. cbv zeta.
    destruct (_checkpoint_callback self) as [c|] eqn:Hc.
    + cbn [snd]. split; [repeat split; try reflexivity;
        destruct (in_True_all _); destruct (is_True _); reflexivity|].
      split; [split|exact Hc]; [|intros _; eexists; reflexivity].
      rewrite journal_set_experiment, calls_end.
      destruct (in_True_all _); destruct (is_True _);
        rewrite ?calls_log_artifact, journal_current, <- ?app_assoc; now eexists.
    + destruct (is_True _); [|destruct (in_True_all _)]; cbn [snd].
      * split; [repeat split; reflexivity|].
        split; [split|exact Hc]; [|intros _; eexists; reflexivity].
        rewrite journal_set_experiment, journal_current. reflexivity.
      * split; [repeat split; reflexivity|].
        split; [split|exact Hc]; [reflexivity|tauto].
      * split; [repeat split; reflexivity|].
        split; [split|exact Hc]; [|intros _; eexists; reflexivity].
        rewrite journal_set_experiment, calls_end, journal_current. now eexists.
Qed.

(** X9: no call changes what the constructor fixed: the prefix, the
    arguments for the session, the version, the model-logging policy, and
    the arguments the session in use was created with are the same after
    any sequence of calls, raised exceptions included. *)
Theorem configuration_never_changes (reqs : list request) (self : DVCLiveLogger) :
  let self' := run_all reqs self in
  _prefix self' = _prefix self
  /\ _live_init self' = _live_init self
  /\ _version self' = _version self
  /\ _log_model self' = _log_model self
  /\ init_args (current_session self') = init_args (current_session self).
Proof.
  cbv zeta. revert self. induction reqs as [|req reqs IH]; intros self.
  - repeat split.
  - cbn [run_requests].
    destruct (run_request_effect req self) as ((H1 & H2 & H3 & H4 & H5) & _).
    destruct (IH (snd (run1 req self))) as (I1 & I2 & I3 & I4 & I5).
    repeat split; congruence.
Qed.

(** X10: the session only ever receives more: after any sequence of calls
    the journal of before is the beginning of the journal of after, and a
    session the logger holds is never dropped. *)
Theorem journal_only_grows (reqs : list request) (self : DVCLiveLogger) :
  let self' := run_all reqs self in
  journal self `prefix_of` journal self'
  /\ (is_Some (_experiment self) -> is_Some (_experiment self')).
Proof.
  cbv zeta. revert self. induction reqs as [|req reqs IH]; intros self.
  - split; [reflexivity|tauto].
  - cbn [run_requests].
    destruct (run_request_effect req self) as (_ & (Hp & Hs) & _).
    destruct (IH (snd (run1 req self))) as (Ip & Is).
    split; [now transitivity (journal (snd (run1 req self)))|auto].
Qed.

(** X11: the recorded checkpoint callback is the one of the latest
    [after_save_checkpoint]; [log_hyperparams], [log_metrics] and [finalize]
    never change it. *)
Theorem recorded_callback_is_last_saved (reqs : list request) (self : DVCLiveLogger) :
  _checkpoint_callback (run_all reqs self)
  = last_saved reqs (_checkpoint_callback self).
Proof.
  revert self. induction reqs as [|req reqs IH]; intros self; [reflexivity|].
  cbn [run_requests]. rewrite IH.
  destruct (run_request_effect req self) as (_ & _ & ->).
  destruct req; reflexivity.
Qed.

End RequestFacts.

(** ** More on [sanitize_dict] *)

(** X12: the merge [{**dict_values, **non_dict_values}] of [sanitize_dict],
    for any sanitizer: a key the sanitizer returns holds the sanitized
    scalar, also when a nested mapping had that key; any other key holds the
    sanitized nested mapping if the input had one there, and is absent
    otherwise.  So a leaf whose key the sanitizer drops is lost. *)
Theorem sanitize_dict_merge
    (_sanitize_params : gmap string scalar -> gmap string scalar)
    (params : gmap string pyval) (k : string) :
  sanitize_dict _sanitize_params params !! k =
    match _sanitize_params (omap as_scalar params) !! k with
    | Some s => Some (PScalar s)
    | None =>
        match params !! k with
        | Some (PDict d) => Some (PDict (sanitize_dict _sanitize_params d))
        | _ => None
        end
    end.
Proof.
  unfold sanitize_dict. simpl.
  rewrite lookup_union, lookup_fmap, lookup_omap.
  destruct (_sanitize_params (omap as_scalar params) !! k) as [s|]; simpl.
  - now destruct (params !! k) as [[s'|d]|].
  - now destruct (params !! k) as [[s'|d]|].
Qed.

Lemma sanitize_leaves_idempotent_depth (f : scalar -> scalar) (n : nat) :
  (forall s, f (f s) = f s) ->
  forall v : pyval,
    (depth v <= n)%nat ->
    sanitize_leaves f (sanitize_leaves f v) = sanitize_leaves f v.
Proof.
  intros Hf. induction n as [|n IH]; intros [s|d] Hd; simpl;
    try (now rewrite Hf); [simpl in Hd; lia|].
  f_equal. apply map_eq. intros k. rewrite !lookup_fmap.
  destruct (d !! k) as [v|] eqn:Hk; simpl; [|reflexivity].
  rewrite IH; [reflexivity|]. apply depth_lookup in Hk. lia.
Qed.

(** X13: with a sanitizer that works value by value and returns its own
    results unchanged, as turning objects into their text does, sanitizing
    a sanitized mapping changes nothing, at any depth of nesting. *)
Theorem sanitize_dict_idempotent
    (_sanitize_params : gmap string scalar -> gmap string scalar)
    (sanitize_value : scalar -> scalar) (params : gmap string pyval) :
  (forall m, _sanitize_params m = sanitize_value <$> m) ->
  (forall s, sanitize_value (sanitize_value s) = sanitize_value s) ->
  sanitize_dict _sanitize_params (sanitize_dict _sanitize_params params)
  = sanitize_dict _sanitize_params params.
Proof.
  intros Hsan Hf.
  rewrite !(sanitize_dict_leaves _ _ Hsan).
  apply map_eq. intros k. rewrite !lookup_fmap.
  destruct (params !! k) as [v|]; simpl; [|reflexivity].
  f_equal. now apply (sanitize_leaves_idempotent_depth _ (depth v)).
Qed.

(** ** Creating the session early or late *)

Lemma same_but_created_set_experiment
    (self1 self2 : DVCLiveLogger) (e : option Live) :
  same_but_created self1 self2 -> set_experiment e self1 = set_experiment e self2.
Proof.
  intros [H _].
  change (set_experiment e (set_experiment None self1)
          = set_experiment e (set_experiment None self2)).
  now rewrite H.
Qed.

Lemma same_but_created_fields (self1 self2 : DVCLiveLogger) :
  same_but_created self1 self2 ->
  _log_model self1 = _log_model self2
  /\ _checkpoint_callback self1 = _checkpoint_callback self2.
Proof.
  intros [H _]. split.
  - exact (f_equal _log_model H).
  - exact (f_equal _checkpoint_callback H).
Qed.

Lemma same_but_created_eq (self : DVCLiveLogger) : same_but_created self self.
Proof. split; reflexivity. Qed.

(** X14: when the session is created does not show.  Two loggers that agree
    on everything but whether the session exists yet, and for which
    [experiment] gives the same session, answer every call alike: the same
    result, and afterwards they still differ at most in that. *)
Theorem session_creation_is_unobservable
    (_convert_params _sanitize_callable_params :
       gmap string pyval -> gmap string pyval)
    (_sanitize_params : gmap string scalar -> gmap string scalar)
    (standardize_metric_name : string -> string -> string)
    (req : request) (self1 self2 : DVCLiveLogger) :
  same_but_created self1 self2 ->
  let r1 :=
    run_request _convert_params _sanitize_callable_params _sanitize_params
      standardize_metric_name req self1 in
  let r2 :=
    run_request _convert_params _sanitize_callable_params _sanitize_params
      standardize_metric_name req self2 in
  fst r1 = fst r2
  /\ same_but_created (snd r1) (snd r2)
  /\ journal (snd r1) = journal (snd r2).
Proof.
  intros Hs. cbv zeta.
  destruct (same_but_created_fields _ _ Hs) as [Hm Hc].
  pose proof (proj2 Hs) as Hcur.
  pose proof (fun e => same_but_created_set_experiment self1 self2 e Hs) as Hset.
  assert (Hj : journal self1 = journal self2)
    by (rewrite <- !journal_current; now rewrite Hcur).
  destruct req as [params|stack metrics step_arg|c|status]; cbn [run_request].
  - rewrite !log_hyperparams_run, Hcur, Hset. cbn [fst snd].
    split; [reflexivity|]. split; [apply same_but_created_eq|reflexivity].
  - rewrite !log_metrics_run. cbv zeta. rewrite Hcur.
    destruct (convertible metrics); cbn [negb];
      [destruct (_should_call_next_step stack); cbn [negb];
         [destruct (bool_decide _); [destruct (_latest_studio_step _)|]|]|];
      rewrite Hset; cbn [fst snd];
      (split; [reflexivity|]; split; [apply same_but_created_eq|reflexivity]).
  - rewrite !after_save_checkpoint_run, Hm, Hcur. cbn [fst snd].
    destruct (_ || _).
    + change (set_experiment ?e (set_checkpoint_callback ?c ?s))
        with (set_checkpoint_callback c (set_experiment e s)).
      rewrite Hset.
      split; [reflexivity|]. split; [apply same_but_created_eq|reflexivity].
    + split; [reflexivity|]. split; [|exact Hj].
      split; [|exact Hcur].
      change (set_checkpoint_callback (Some c) (set_experiment None self1)
              = set_checkpoint_callback (Some c) (set_experiment None self2)).
      now rewrite (proj1 Hs).
  - rewrite !finalize_run. cbv zeta. rewrite Hm, Hc, Hcur.
    destruct (_checkpoint_callback self2) as [c|].
    + rewrite Hset. cbn [fst snd].
      split; [reflexivity|]. split; [apply same_but_created_eq|reflexivity].
    + destruct (is_True _); [|destruct (in_True_all _)]; cbn [fst snd];
        rewrite ?Hset;
        (split; [reflexivity|]; split;
         [first [apply same_but_created_eq|exact Hs]
         |first [reflexivity|exact Hj]]).
Qed.

(** ** The further properties on concrete runs *)

Lemma decider_depends_on_names_witness :
  (forall n, In n (map function stack_train_step)
             <-> In n (map function (frame "main" :: rev stack_train_step)))
  /\ _should_call_next_step stack_train_step
     = _should_call_next_step (frame "main" :: rev stack_train_step).
Proof.
  assert (H : forall n, In n (map function stack_train_step)
                <-> In n (map function (frame "main" :: rev stack_train_step))).
  { intros n. simpl. tauto. }
  split; [exact H|].
  exact (decider_depends_on_names stack_train_step
           (frame "main" :: rev stack_train_step) H).
Defined.

Lemma log_metrics_stops_at_bad_tensor_witness :
  let good := [("train/loss", Number 0.5%float)] in
  let rest := [("train/acc", Number 0.25%float)] in
  let elems := [0.125%float; 0.875%float] in
  let cs := [Log_metric "train/loss" 0.5%float] in
  let self := new_logger (LMBool false) in
  let r :=
    log_metrics metric_name_model stack_train_step
      (good ++ ("confusion", Tensor elems) :: rest) (Some 3) self in
  Forall2 (fun entry c => forwarded metric_name_model entry = Some c) good cs
  /\ length elems <> 1%nat
  /\ fst r = Raise ConversionError
  /\ journal (snd r) = journal self ++ Set_step (Some 3) :: cs
  /\ step (current_session (snd r)) = Some 3.
Proof.
  cbv zeta.
  assert (H1 : Forall2 (fun entry c => forwarded metric_name_model entry = Some c)
                 [("train/loss", Number 0.5%float)]
                 [Log_metric "train/loss" 0.5%float])
    by (repeat constructor).
  assert (H2 : length [0.125%float; 0.875%float] <> 1%nat) by (simpl; lia).
  split; [exact H1|]. split; [exact H2|].
  exact (log_metrics_stops_at_bad_tensor metric_name_model stack_train_step
           [("train/loss", Number 0.5%float)] [("train/acc", Number 0.25%float)]
           "confusion" [0.125%float; 0.875%float]
           [Log_metric "train/loss" 0.5%float] (Some 3)
           (new_logger (LMBool false)) H1 H2).
Defined.

Lemma log_metrics_forwards_each_once_witness :
  let metrics :=
    [("train/loss", Number 0.5%float); ("train/acc", Tensor [0.25%float])] in
  let self := new_logger (LMBool false) in
  let self' :=
    snd (log_metrics metric_name_model stack_train_step metrics (Some 3) self) in
  convertible metrics = true
  /\ exists cs tail,
       Forall2 (fun entry c => forwarded metric_name_model entry = Some c)
         metrics cs
       /\ journal self' = journal self ++ Set_step (Some 3) :: cs ++ tail
       /\ forall name val, ~ In (Log_metric name val) tail.
Proof.
  cbv zeta. split; [reflexivity|].
  exact (log_metrics_forwards_each_once metric_name_model stack_train_step
           [("train/loss", Number 0.5%float); ("train/acc", Tensor [0.25%float])]
           (Some 3) (new_logger (LMBool false)) eq_refl).
Defined.

Lemma log_metrics_outside_finalizers_witness :
  let self := new_logger (LMBool false) in
  let r :=
    log_metrics metric_name_model stack_user_callback
      [("train/loss", Number 0.5%float)] (Some 3) self in
  (forall f, In f stack_user_callback -> ~ In (function f) finalizer_names)
  /\ ~ In Next_step (new_calls self (snd r))
  /\ (forall n, ~ In (Set_latest_studio_step n) (new_calls self (snd r)))
  /\ _latest_studio_step (current_session (snd r))
     = _latest_studio_step (current_session self)
  /\ step (current_session (snd r)) = Some 3
  /\ fst r <> Raise TypeError.
Proof.
  cbv zeta.
  assert (H : forall f, In f stack_user_callback
                        -> ~ In (function f) finalizer_names).
  { intros f [<-|[<-|[<-|[]]]]; simpl; intuition discriminate. }
  split; [exact H|].
  exact (log_metrics_outside_finalizers metric_name_model stack_user_callback
           [("train/loss", Number 0.5%float)] (Some 3)
           (new_logger (LMBool false)) H).
Defined.

Lemma finalize_logging_disabled_witness :
  let self := new_logger (LMBool false) in
  _log_model self <> LMBool true
  /\ _log_model self <> LMStr "all"
  /\ exists self',
       finalize "success" self = (Ok tt, self')
       /\ journal self' = journal self ++ [End_run]
       /\ _checkpoint_callback self' = _checkpoint_callback self.
Proof.
  cbv zeta.
  assert (H1 : _log_model (new_logger (LMBool false)) <> LMBool true)
    by (simpl; discriminate).
  assert (H2 : _log_model (new_logger (LMBool false)) <> LMStr "all")
    by (simpl; discriminate).
  split; [exact H1|]. split; [exact H2|].
  exact (finalize_logging_disabled "success" (new_logger (LMBool false)) H1 H2).
Defined.

Lemma sanitize_dict_idempotent_witness :
  let params : gmap string pyval :=
    {[ "optimizer" := PScalar (SObj "Adam");
       "a" := PDict {[ "b" := PScalar (SInt 1) ]} ]} in
  (forall m, sanitize_params_model m = sanitize_scalar <$> m)
  /\ (forall s, sanitize_scalar (sanitize_scalar s) = sanitize_scalar s)
  /\ sanitize_dict sanitize_params_model (sanitize_dict sanitize_params_model params)
     = sanitize_dict sanitize_params_model params.
Proof.
  cbv zeta.
  assert (H1 : forall m, sanitize_params_model m = sanitize_scalar <$> m)
    by reflexivity.
  assert (H2 : forall s, sanitize_scalar (sanitize_scalar s) = sanitize_scalar s)
    by (intros []; reflexivity).
  split; [exact H1|]. split; [exact H2|].
  exact (sanitize_dict_idempotent sanitize_params_model sanitize_scalar _ H1 H2).
Defined.

Lemma session_creation_is_unobservable_witness :
  let self1 := new_logger (LMBool true) in
  let self2 := set_experiment (Some (Live_new (_live_init self1))) self1 in
  let r1 :=
    run_request convert_params_model sanitize_callable_params_model
      sanitize_params_model metric_name_model (Call_finalize "success") self1 in
  let r2 :=
    run_request convert_params_model sanitize_callable_params_model
      sanitize_params_model metric_name_model (Call_finalize "success") self2 in
  same_but_created self1 self2
  /\ fst r1 = fst r2
  /\ same_but_created (snd r1) (snd r2)
  /\ journal (snd r1) = journal (snd r2).
Proof.
  cbv zeta.
  assert (H : same_but_created (new_logger (LMBool true))
                (set_experiment
                   (Some (Live_new (_live_init (new_logger (LMBool true)))))
                   (new_logger (LMBool true))))
    by (split; reflexivity).
  split; [exact H|].
  exact (session_creation_is_unobservable convert_params_model
           sanitize_callable_params_model sanitize_params_model
           metric_name_model (Call_finalize "success") _ _ H).
Defined.
